(** * dash::Mutex (dash/include/dash/Mutex.h)

    A shallow embedding of the DASH team mutex.  The class is a thin
    wrapper around five calls of the DART runtime; every method issues
    one call and hands the returned status to [DASH_ASSERT_EQ].

    The development has three layers:
    - the class itself, over an abstract DART runtime (section [Mutex]);
    - a process owning named [Mutex] objects (module [Process]);
    - the lock service described in the specification, and a team of
      processes sharing one lock (modules [LockService] and [TeamRun]). *)

From Stdlib Require Import ZArith String List Bool Lia.
From stdpp Require Import gmap strings.

Local Open Scope Z_scope.
Local Open Scope string_scope.

(** ** Types of the DART interface *)

(** [dart_lock_t] is an opaque handle (a pointer in the C interface),
    [dart_team_t] a team id, [int32_t] the out-parameter of
    [dart_lock_try_acquire]. *)
Abbreviation dart_lock_t := Z (only parsing).
Abbreviation dart_team_t := Z (only parsing).
Abbreviation int32_t := Z (only parsing).

(** Modelled from the spec: the status type [dart_ret_t] and [DART_OK] are
    declared in the DART headers, which Mutex.h only uses.  The
    specification only distinguishes the success status from
    non-success statuses carrying a backend status code. *)
Inductive dart_ret_t : Type :=
| DART_OK
| DART_ERR (code : Z).

#[global] Instance dart_ret_t_eq_dec : EqDecision dart_ret_t.
Proof. solve_decision. Defined.

(** Modelled from the spec: [dash::Team] is declared in Team.h, which
    Mutex.h only includes.  A team exposes a stable identifier,
    [dart_id()].  Team objects live in the memory of the process; a
    [Team &] is the address of one of them. *)
Record Team : Type := mkTeam { dart_id : dart_team_t }.

Abbreviation team_ref := positive (only parsing).

(** The five runtime entry points used by the class. *)
Inductive dart_call : Type :=
| call_team_lock_init (team : dart_team_t)
| call_team_lock_free (team : dart_team_t) (lock : dart_lock_t)
| call_lock_acquire (lock : dart_lock_t)
| call_lock_try_acquire (lock : dart_lock_t)
| call_lock_release (lock : dart_lock_t).

#[global] Instance dart_call_eq_dec : EqDecision dart_call.
Proof. solve_decision. Defined.

(** The name of the C function behind each entry point. *)
Definition dart_call_name (c : dart_call) : string :=
  match c with
  | call_team_lock_init _ => "dart_team_lock_init"
  | call_team_lock_free _ _ => "dart_team_lock_free"
  | call_lock_acquire _ => "dart_lock_acquire"
  | call_lock_try_acquire _ => "dart_lock_try_acquire"
  | call_lock_release _ => "dart_lock_release"
  end.

(** The runtime as the class sees it: five functions over the runtime's
    own state [RT].  Out-parameters ([dart_lock_t *], [int32_t *]) are
    returned next to the status.  [dart_lock_acquire] blocks: [None]
    means that the call does not return in the given state. *)
Class DartRuntime (RT : Type) : Type := {
  dart_team_lock_init :
    dart_team_t → RT → dart_ret_t * dart_lock_t * RT;
  dart_team_lock_free :
    dart_team_t → dart_lock_t → RT → dart_ret_t * dart_lock_t * RT;
  dart_lock_acquire :
    dart_lock_t → RT → option (dart_ret_t * RT);
  dart_lock_try_acquire :
    dart_lock_t → RT → dart_ret_t * int32_t * RT;
  dart_lock_release :
    dart_lock_t → RT → dart_ret_t * RT
}.

(** ** Process state and the monad of method bodies *)

(** What a method can touch: the [Team] objects of the process, the state
    of the runtime, and (as a record of what happened) the runtime calls
    that have returned, oldest first, each with its status. *)
Record world (RT : Type) : Type := World {
  teams : gmap positive Team;
  runtime : RT;
  calls : list (dart_call * dart_ret_t)
}.
Arguments World {RT} _ _ _.
Arguments teams {RT} _.
Arguments runtime {RT} _.
Arguments calls {RT} _.

(** How a method ends.  [Fatal] is a failed [DASH_ASSERT_EQ]; [Blocked]
    a runtime call that has not returned; [Undefined] a use of a
    reference to an object that does not exist. *)
Inductive outcome (A : Type) : Type :=
| Done (a : A)
| Fatal (msg : string) (expected actual : dart_ret_t)
| Blocked
| Undefined.
Arguments Done {A} _.
Arguments Fatal {A} _ _ _.
Arguments Blocked {A}.
Arguments Undefined {A}.

Definition M (RT A : Type) : Type := world RT → outcome A * world RT.

Definition ret {RT A} (a : A) : M RT A := fun w => (Done a, w).

Definition bind {RT A B} (m : M RT A) (k : A → M RT B) : M RT B :=
  fun w =>
    match m w with
    | (Done a, w') => k a w'
    | (Fatal msg e v, w') => (Fatal msg e v, w')
    | (Blocked, w') => (Blocked, w')
    | (Undefined, w') => (Undefined, w')
    end.

Declare Scope mutex_scope.
Delimit Scope mutex_scope with mutex.
Notation "'let*' x ':=' m 'in' k" := (bind m (fun x => k))
  (at level 10, x name, m at level 100, k at level 200) : mutex_scope.
Notation "m ;;; k" := (bind m (fun _ => k))
  (at level 100, right associativity) : mutex_scope.
Local Open Scope mutex_scope.

Definition is_fatal {A} (o : outcome A) : bool :=
  match o with Fatal _ _ _ => true | _ => false end.

(** Modelled from the spec: the macro [DASH_ASSERT_EQ] comes from
    dash/Exception.h, which Mutex.h only includes.  By the
    specification a status different from the expected one is escalated
    to a fatal error that carries the message and the backend status. *)
Definition DASH_ASSERT_EQ {RT} (expected value : dart_ret_t) (msg : string)
  : M RT unit :=
  fun w => if decide (expected = value) then (Done tt, w)
           else (Fatal msg expected value, w).

(** A status check followed by [return a]: what is left of a method
    body once its call has returned [r]. *)
Definition checked {RT A} (r : dart_ret_t) (msg : string) (a : A) (w : world RT)
  : outcome A * world RT :=
  if decide (DART_OK = r) then (Done a, w) else (Fatal msg DART_OK r, w).

(** [static_cast<bool>] of an [int32_t]. *)
Definition static_cast_bool (v : int32_t) : bool := negb (v =? 0)%Z.

(** ** The class *)

(** The two data members. *)
Record Mutex : Type := mkMutex {
  _mutex : dart_lock_t;
  _team : team_ref
}.

Section Mutex.
Context {RT : Type} `{!DartRuntime RT}.
(** The address of the object returned by [dash::Team::All()]. *)
Variable Team_All : team_ref.

(** Record a returned call. *)
Definition returned (c : dart_call) (r : dart_ret_t) (w : world RT) (s : RT)
  : world RT :=
  World (teams w) s (calls w ++ [(c, r)]).

(** [_team.dart_id()] *)
Definition team_dart_id (t : team_ref) : M RT dart_team_t :=
  fun w => match teams w !! t with
           | Some tm => (Done (dart_id tm), w)
           | None => (Undefined, w)
           end.

Definition do_team_lock_init (id : dart_team_t) : M RT (dart_ret_t * dart_lock_t) :=
  fun w => let '(r, h, s) := dart_team_lock_init id (runtime w) in
           (Done (r, h), returned (call_team_lock_init id) r w s).

Definition do_team_lock_free (id : dart_team_t) (h : dart_lock_t)
  : M RT (dart_ret_t * dart_lock_t) :=
  fun w => let '(r, h', s) := dart_team_lock_free id h (runtime w) in
           (Done (r, h'), returned (call_team_lock_free id h) r w s).

Definition do_lock_acquire (h : dart_lock_t) : M RT dart_ret_t :=
  fun w => match dart_lock_acquire h (runtime w) with
           | Some (r, s) => (Done r, returned (call_lock_acquire h) r w s)
           | None => (Blocked, w)
           end.

Definition do_lock_try_acquire (h : dart_lock_t) : M RT (dart_ret_t * int32_t) :=
  fun w => let '(r, v, s) := dart_lock_try_acquire h (runtime w) in
           (Done (r, v), returned (call_lock_try_acquire h) r w s).

Definition do_lock_release (h : dart_lock_t) : M RT dart_ret_t :=
  fun w => let '(r, s) := dart_lock_release h (runtime w) in
           (Done r, returned (call_lock_release h) r w s).

(** [explicit Mutex(Team & team = dash::Team::All())] *)
Definition Mutex_ctor (team : option team_ref) : M RT Mutex :=
  let t := default Team_All team in
  let* id := team_dart_id t in
  let* rh := do_team_lock_init id in
  DASH_ASSERT_EQ DART_OK (fst rh) "dart_team_lock_init failed" ;;;
  ret (mkMutex (snd rh) t).

(** [Mutex(Mutex && other) = default]: member-wise; the handle is a
    scalar and the team a reference, so both are copied and [other]
    is left as it was. *)
Definition Mutex_move (other : Mutex) : Mutex * Mutex :=
  (mkMutex (_mutex other) (_team other), other).

(** [~Mutex()] *)
Definition Mutex_dtor (this : Mutex) : M RT unit :=
  let* id := team_dart_id (_team this) in
  let* rh := do_team_lock_free id (_mutex this) in
  DASH_ASSERT_EQ DART_OK (fst rh) "dart_team_lock_free failed".

(** [void lock()] *)
Definition lock (this : Mutex) : M RT unit :=
  let* r := do_lock_acquire (_mutex this) in
  DASH_ASSERT_EQ DART_OK r "dart_lock_acquire failed".

(** [bool try_lock()] *)
Definition try_lock (this : Mutex) : M RT bool :=
  let* rv := do_lock_try_acquire (_mutex this) in
  DASH_ASSERT_EQ DART_OK (fst rv) "dart_lock_try_acquire failed" ;;;
  ret (static_cast_bool (snd rv)).

(** [void unlock()] *)
Definition unlock (this : Mutex) : M RT unit :=
  let* r := do_lock_release (_mutex this) in
  DASH_ASSERT_EQ DART_OK r "dart_lock_acquire failed".

(** The public member functions, and what each hands back. *)
Inductive method : Type :=
| Construct (team : option team_ref)
| Destruct
| Lock
| TryLock
| Unlock.

Inductive value : Type :=
| v_unit
| v_bool (b : bool)
| v_mutex (m : Mutex).

(** Call a member function on [this] (which [Construct] ignores: the
    object does not exist yet). *)
Definition run_method (f : method) (this : Mutex) : M RT value :=
  match f with
  | Construct team => let* m := Mutex_ctor team in ret (v_mutex m)
  | Destruct => Mutex_dtor this ;;; ret v_unit
  | Lock => lock this ;;; ret v_unit
  | TryLock => let* b := try_lock this in ret (v_bool b)
  | Unlock => unlock this ;;; ret v_unit
  end.

(** The runtime call behind a member function, when [this] and the
    team it names exist. *)
Definition runtime_call (f : method) (this : Mutex) (w : world RT)
  : option dart_call :=
  match f with
  | Construct team =>
      tm ← teams w !! default Team_All team;
      Some (call_team_lock_init (dart_id tm))
  | Destruct =>
      tm ← teams w !! _team this;
      Some (call_team_lock_free (dart_id tm) (_mutex this))
  | Lock => Some (call_lock_acquire (_mutex this))
  | TryLock => Some (call_lock_try_acquire (_mutex this))
  | Unlock => Some (call_lock_release (_mutex this))
  end.

(** The status with which the runtime answers a call in state [s];
    [None] when the call blocks. *)
Definition status_of (c : dart_call) (s : RT) : option dart_ret_t :=
  match c with
  | call_team_lock_init id => Some (dart_team_lock_init id s).1.1
  | call_team_lock_free id h => Some (dart_team_lock_free id h s).1.1
  | call_lock_acquire h => fst <$> dart_lock_acquire h s
  | call_lock_try_acquire h => Some (dart_lock_try_acquire h s).1.1
  | call_lock_release h => Some (dart_lock_release h s).1
  end.

End Mutex.

Arguments method : clear implicits.
Arguments value : clear implicits.

(** Does a diagnostic name the runtime function [c]? *)
Definition names_call (c : dart_call) (msg : string) : bool :=
  match String.index 0 (dart_call_name c) msg with
  | Some _ => true
  | None => false
  end.

(** ** A process and its [Mutex] objects *)

Module Process.

(** What a program can do with objects of the class.  The copy
    constructor and the copy assignment are deleted, and no move
    assignment is declared, so there is nothing to list for them. *)
Inductive op : Type :=
| Define (x : string) (team : option positive)   (* Mutex x(team); Mutex x; *)
| MoveFrom (x src : string)                        (* Mutex x(std::move(src)); *)
| EndOfLife (x : string)                           (* x goes out of scope *)
| CallLock (x : string)                            (* x.lock() *)
| CallTryLock (x : string)                         (* x.try_lock() *)
| CallUnlock (x : string).                         (* x.unlock() *)

(** The live objects by name, and the rest of the process. *)
Record proc (RT : Type) : Type := Proc {
  objs : gmap string Mutex;
  mem : world RT
}.
Arguments Proc {RT} _ _.
Arguments objs {RT} _.
Arguments mem {RT} _.

Section Exec.
Context {RT : Type} `{!DartRuntime RT}.
Variable Team_All : team_ref.

(** Run a member function and keep the objects as [keep] says when
    it returns. *)
Definition call (f : method) (this : Mutex)
    (keep : value → gmap string Mutex) (p : proc RT)
  : outcome value * proc RT :=
  match run_method Team_All f this (mem p) with
  | (Done v, w) => (Done v, Proc (keep v) w)
  | (o, w) => (o, Proc (objs p) w)
  end.

Definition exec (o : op) (p : proc RT) : outcome value * proc RT :=
  match o with
  | Define x team =>
      match objs p !! x with
      | Some _ => (Undefined, p)
      | None =>
          call (Construct team) (mkMutex 0 1%positive)
            (fun v => match v with
                      | v_mutex m => <[x := m]> (objs p)
                      | _ => objs p
                      end) p
      end
  | MoveFrom x src =>
      match objs p !! x, objs p !! src with
      | None, Some other =>
          let '(this, other') := Mutex_move other in
          (Done v_unit, Proc (<[x := this]> (<[src := other']> (objs p))) (mem p))
      | _, _ => (Undefined, p)
      end
  | EndOfLife x =>
      match objs p !! x with
      | Some this => call Destruct this (fun _ => delete x (objs p)) p
      | None => (Undefined, p)
      end
  | CallLock x =>
      match objs p !! x with
      | Some this => call Lock this (fun _ => objs p) p
      | None => (Undefined, p)
      end
  | CallTryLock x =>
      match objs p !! x with
      | Some this => call TryLock this (fun _ => objs p) p
      | None => (Undefined, p)
      end
  | CallUnlock x =>
      match objs p !! x with
      | Some this => call Unlock this (fun _ => objs p) p
      | None => (Undefined, p)
      end
  end.

(** A straight-line program; it stops at the first statement that
    does not return. *)
Fixpoint run (prog : list op) (p : proc RT) : outcome value * proc RT :=
  match prog with
  | [] => (Done v_unit, p)
  | o :: rest =>
      match exec o p with
      | (Done _, p') => run rest p'
      | stuck => stuck
      end
  end.

End Exec.

(** No two live objects own the same handle. *)
Definition single_owner (os : gmap string Mutex) : Prop :=
  ∀ x y mx my,
    os !! x = Some mx → os !! y = Some my →
    _mutex mx = _mutex my → x = y.

(** The calls of the log that free handle [h]. *)
Definition frees_of (h : dart_lock_t) (log : list (dart_call * dart_ret_t))
  : list (dart_call * dart_ret_t) :=
  filter (λ cr, match cr.1 with
                | call_team_lock_free _ h' => bool_decide (h' = h)
                | _ => false
                end = true) log.

End Process.

(** ** The lock service of the specification *)

Module LockService.

Abbreviation rank := nat (only parsing).

(** Modelled from the spec: the DART implementation of the five calls is
    outside Mutex.h.  The state machine of a handle is that of the
    specification: Uninitialized (no entry in [locks]), then Unlocked,
    Locked by a rank, and at the end Destroyed. *)
Inductive lock_state : Type :=
| Unlocked
| Locked (holder : rank)
| Destroyed.

#[global] Instance lock_state_eq_dec : EqDecision lock_state.
Proof. solve_decision. Defined.

Record service : Type := Service {
  locks : gmap Z lock_state;
  next_lock : Z
}.

(** The status of a request for which the state machine has no
    transition. *)
Definition DART_ERR_INVAL : dart_ret_t := DART_ERR 2.

Definition set_lock (h : dart_lock_t) (st : lock_state) (s : service) : service :=
  Service (<[h := st]> (locks s)) (next_lock s).

Section Calls.
(** The calling process. *)
Variable me : rank.

(** Modelled from the spec: [create_lock(team_id) -> (handle, status)]
    allocates lock state, which starts Unlocked. *)
Definition create_lock (team : dart_team_t) (s : service)
  : dart_ret_t * dart_lock_t * service :=
  let h := next_lock s in
  (DART_OK, h, Service (<[h := Unlocked]> (locks s)) (h + 1)).

(** Modelled from the spec: [destroy_lock(team_id, handle) -> status];
    Initialized(Unlocked) → Destroyed is the only transition. *)
Definition destroy_lock (team : dart_team_t) (h : dart_lock_t) (s : service)
  : dart_ret_t * dart_lock_t * service :=
  match locks s !! h with
  | Some Unlocked => (DART_OK, h, set_lock h Destroyed s)
  | _ => (DART_ERR_INVAL, h, s)
  end.

(** Modelled from the spec: [acquire(handle) -> status] blocks, and
    grants exclusive ownership to the caller on success. *)
Definition acquire (h : dart_lock_t) (s : service)
  : option (dart_ret_t * service) :=
  match locks s !! h with
  | Some Unlocked => Some (DART_OK, set_lock h (Locked me) s)
  | Some (Locked _) => None
  | _ => Some (DART_ERR_INVAL, s)
  end.

(** Modelled from the spec: [try_acquire(handle) -> (acquired, status)]
    does not block; a busy lock is not an error. *)
Definition try_acquire (h : dart_lock_t) (s : service)
  : dart_ret_t * int32_t * service :=
  match locks s !! h with
  | Some Unlocked => (DART_OK, 1, set_lock h (Locked me) s)
  | Some (Locked _) => (DART_OK, 0, s)
  | _ => (DART_ERR_INVAL, 0, s)
  end.

(** Modelled from the spec: [release(handle) -> status] releases the
    ownership held by the caller; Locked(R) → Unlocked is taken by R
    only.  A release by anyone else is undefined or fatal by the
    specification: here it is refused. *)
Definition release (h : dart_lock_t) (s : service)
  : dart_ret_t * service :=
  match locks s !! h with
  | Some (Locked r) =>
      if decide (r = me) then (DART_OK, set_lock h Unlocked s)
      else (DART_ERR_INVAL, s)
  | _ => (DART_ERR_INVAL, s)
  end.

Definition runtime_of : DartRuntime service := {|
  dart_team_lock_init := create_lock;
  dart_team_lock_free := destroy_lock;
  dart_lock_acquire := acquire;
  dart_lock_try_acquire := try_acquire;
  dart_lock_release := release
|}.

End Calls.

Definition empty_service : service := Service ∅ 0.

End LockService.

(** A process of rank 0 on the lock service, with the one team that
    [dash::Team::All()] refers to and no object yet. *)
Definition fresh_process : Process.proc LockService.service :=
  Process.Proc ∅
    (World {[ 1%positive := mkTeam 0 ]} LockService.empty_service []).

(** ** A team sharing one lock *)

Module TeamRun.
Import LockService.

(** The local calls a member can issue on its mutex. *)
Inductive action : Type := a_lock | a_try_lock | a_unlock.

(** The service, the members that have seen their own [lock()] return
    or their own [try_lock()] return [true] and have not had an
    [unlock()] return since, and the members stopped by a fatal error. *)
Record team_state : Type := TeamState {
  shared : service;
  holders : gset nat;
  aborted : gset nat
}.

(** Run a method body of member [me] against the shared service. *)
Definition on_service {A} (me : rank)
    (body : DartRuntime service → M service A) (s : service)
  : outcome A * service :=
  let '(o, w) := body (runtime_of me) (World ∅ s []) in (o, runtime w).

Section OneLock.
(** The handle every member received from the collective constructor;
    each member wraps it in a [Mutex] object of its own. *)
Variable h : dart_lock_t.

Definition mutex_of (me : rank) : Mutex := mkMutex h 1%positive.

(** One call by member [me], from issue to return.  [None]: the call
    does not return in this state ([lock()] on a held lock), or the
    member has been stopped. *)
Definition step (me : rank) (a : action) (st : team_state) : option team_state :=
  if decide (me ∈ aborted st) then None else
  match a with
  | a_lock =>
      match on_service me (λ rt, @lock _ rt (mutex_of me)) (shared st) with
      | (Done _, s) => Some (TeamState s ({[me]} ∪ holders st) (aborted st))
      | (Fatal _ _ _, s) => Some (TeamState s (holders st) ({[me]} ∪ aborted st))
      | _ => None
      end
  | a_try_lock =>
      match on_service me (λ rt, @try_lock _ rt (mutex_of me)) (shared st) with
      | (Done true, s) => Some (TeamState s ({[me]} ∪ holders st) (aborted st))
      | (Done false, s) => Some (TeamState s (holders st) (aborted st))
      | (Fatal _ _ _, s) => Some (TeamState s (holders st) ({[me]} ∪ aborted st))
      | _ => None
      end
  | a_unlock =>
      match on_service me (λ rt, @unlock _ rt (mutex_of me)) (shared st) with
      | (Done _, s) => Some (TeamState s (holders st ∖ {[me]}) (aborted st))
      | (Fatal _ _ _, s) => Some (TeamState s (holders st) ({[me]} ∪ aborted st))
      | _ => None
      end
  end.

(** An interleaving: who calls what, in the order in which the calls
    are served.  A call that cannot be served is left pending and
    changes nothing. *)
Fixpoint run (sched : list (rank * action)) (st : team_state) : team_state :=
  match sched with
  | [] => st
  | (me, a) :: rest =>
      match step me a st with
      | Some st' => run rest st'
      | None => run rest st
      end
  end.

(** What keeps the members' views in line with the service. *)
Definition holders_agree (st : team_state) : Prop :=
  ∀ r, r ∈ holders st → locks (shared st) !! h = Some (Locked r).

End OneLock.

(** The team right after the collective constructor. *)
Definition after_ctor (s : service) : team_state := TeamState s ∅ ∅.

Definition mutual_exclusion (st : team_state) : Prop :=
  ∀ r1 r2, r1 ∈ holders st → r2 ∈ holders st → r1 = r2.

End TeamRun.

(** ** A scripted runtime *)

(** A runtime that answers from a script: each call takes the next
    entry, a status and the value for the out-parameter.  With the
    script used up, every call succeeds with 0. *)
Module Scripted.

Definition next (s : list (dart_ret_t * Z)) : dart_ret_t * Z * list (dart_ret_t * Z) :=
  match s with
  | [] => (DART_OK, 0, [])
  | (r, v) :: rest => (r, v, rest)
  end.

Definition runtime_of : DartRuntime (list (dart_ret_t * Z)) := {|
  dart_team_lock_init := λ _ s, next s;
  dart_team_lock_free := λ _ _ s, next s;
  dart_lock_acquire := λ _ s, let '(r, _, s') := next s in Some (r, s');
  dart_lock_try_acquire := λ _ s, next s;
  dart_lock_release := λ _ s, let '(r, _, s') := next s in (r, s')
|}.

(** A process with one team, the one [dash::Team::All()] refers to. *)
Definition Team_All : team_ref := 1%positive.

Definition start (script : list (dart_ret_t * Z)) : world (list (dart_ret_t * Z)) :=
  World {[ Team_All := mkTeam 0 ]} script [].

End Scripted.

(** * Properties *)

(** ** The method bodies, unfolded *)

Section MutexFacts.
Context {RT : Type} `{!DartRuntime RT}.
Variable Team_All : team_ref.


Lemma Mutex_ctor_eq team w :
  Mutex_ctor Team_All team w =
  match teams w !! default Team_All team with
  | None => (Undefined, w)
  | Some tm =>
      let '(r, h, s) := dart_team_lock_init (dart_id tm) (runtime w) in
      checked r "dart_team_lock_init failed"
        (mkMutex h (default Team_All team))
        (returned (call_team_lock_init (dart_id tm)) r w s)
  end.
Proof.
  unfold Mutex_ctor, bind, team_dart_id, do_team_lock_init, DASH_ASSERT_EQ, checked, ret.
  destruct (teams w !! default Team_All team) as [tm|]; [|reflexivity].
  destruct (dart_team_lock_init (dart_id tm) (runtime w)) as [[r h'] s]; simpl.
  destruct (decide (DART_OK = r)); reflexivity.
Qed.

Lemma Mutex_dtor_eq this w :
  Mutex_dtor this w =
  match teams w !! _team this with
  | None => (Undefined, w)
  | Some tm =>
      let '(r, h', s) := dart_team_lock_free (dart_id tm) (_mutex this) (runtime w) in
      checked r "dart_team_lock_free failed" tt
        (returned (call_team_lock_free (dart_id tm) (_mutex this)) r w s)
  end.
Proof.
  unfold Mutex_dtor, bind, team_dart_id, do_team_lock_free, DASH_ASSERT_EQ, checked.
  destruct (teams w !! _team this) as [tm|]; [|reflexivity].
  destruct (dart_team_lock_free _ _ _) as [[r h'] s]; simpl.
  destruct (decide (DART_OK = r)); reflexivity.
Qed.

Lemma lock_eq this w :
  lock this w =
  match dart_lock_acquire (_mutex this) (runtime w) with
  | None => (Blocked, w)
  | Some (r, s) =>
      checked r "dart_lock_acquire failed" tt
        (returned (call_lock_acquire (_mutex this)) r w s)
  end.
Proof.
  unfold lock, bind, do_lock_acquire, DASH_ASSERT_EQ, checked.
  destruct (dart_lock_acquire _ _) as [[r s]|]; reflexivity.
Qed.

Lemma try_lock_eq this w :
  try_lock this w =
  let '(r, v, s) := dart_lock_try_acquire (_mutex this) (runtime w) in
  checked r "dart_lock_try_acquire failed" (static_cast_bool v)
    (returned (call_lock_try_acquire (_mutex this)) r w s).
Proof.
  unfold try_lock, bind, do_lock_try_acquire, DASH_ASSERT_EQ, checked, ret.
  destruct (dart_lock_try_acquire _ _) as [[r v] s]; simpl.
  destruct (decide (DART_OK = r)); reflexivity.
Qed.

Lemma unlock_eq this w :
  unlock this w =
  let '(r, s) := dart_lock_release (_mutex this) (runtime w) in
  checked r "dart_lock_acquire failed" tt
    (returned (call_lock_release (_mutex this)) r w s).
Proof.
  unfold unlock, bind, do_lock_release, DASH_ASSERT_EQ, checked.
  destruct (dart_lock_release _ _) as [r s]; reflexivity.
Qed.

Lemma checked_outcome {A} r msg (a : A) (w : world RT) :
  (checked r msg a w).1 = if decide (DART_OK = r) then Done a else Fatal msg DART_OK r.
Proof. unfold checked. destruct (decide _); reflexivity. Qed.

(** A member function touches the world only through its one call:
    the [Team] objects stay as they are. *)
Lemma run_method_teams f this w :
  teams (run_method Team_All f this w).2 = teams w.
Proof.
  destruct f; unfold run_method, bind, ret.
  - rewrite Mutex_ctor_eq. destruct (teams w !! _) as [tm|]; [|reflexivity].
    destruct (dart_team_lock_init _ _) as [[r h] s]. unfold checked.
    destruct (decide _); reflexivity.
  - rewrite Mutex_dtor_eq. destruct (teams w !! _) as [tm|]; [|reflexivity].
    destruct (dart_team_lock_free _ _ _) as [[r h] s]. unfold checked.
    destruct (decide _); reflexivity.
  - rewrite lock_eq. destruct (dart_lock_acquire _ _) as [[r s]|]; [|reflexivity].
    unfold checked. destruct (decide _); reflexivity.
  - rewrite try_lock_eq. destruct (dart_lock_try_acquire _ _) as [[r v] s].
    unfold checked. destruct (decide _); reflexivity.
  - rewrite unlock_eq. destruct (dart_lock_release _ _) as [r s].
    unfold checked. destruct (decide _); reflexivity.
Qed.

(** What a member function returns once its runtime call has returned
    status [r]: the call is on record, and the status decides. *)
Lemma run_method_status f this w c r :
  runtime_call Team_All f this w = Some c →
  status_of c (runtime w) = Some r →
  calls (run_method Team_All f this w).2 = (calls w ++ [(c, r)])%list ∧
  if decide (DART_OK = r)
  then ∃ v, (run_method Team_All f this w).1 = Done v
  else ∃ msg, (run_method Team_All f this w).1 = Fatal msg DART_OK r
              ∧ (f ≠ Unlock → names_call c msg = true).
Proof.
  destruct f; unfold run_method, bind, ret; simpl; intros Hc Hs.
  - rewrite Mutex_ctor_eq.
    destruct (teams w !! default Team_All team) as [tm|]; simplify_eq/=.
    destruct (dart_team_lock_init _ _) as [[r h] s]; simpl. unfold checked.
    destruct (decide _); simpl; eauto.
  - rewrite Mutex_dtor_eq.
    destruct (teams w !! _team this) as [tm|]; simplify_eq/=.
    destruct (dart_team_lock_free _ _ _) as [[r h] s]; simpl. unfold checked.
    destruct (decide _); simpl; eauto.
  - rewrite lock_eq. simplify_eq/=.
    destruct (dart_lock_acquire _ _) as [[r' s]|]; simplify_eq/=. unfold checked.
    destruct (decide _); simpl; eauto.
  - rewrite try_lock_eq. simplify_eq/=.
    destruct (dart_lock_try_acquire _ _) as [[r v] s]; simpl. unfold checked.
    destruct (decide _); simpl; eauto.
  - rewrite unlock_eq. simplify_eq/=.
    destruct (dart_lock_release _ _) as [r s]; simpl. unfold checked.
    destruct (decide _); simpl; eauto.
    split; [done|]. eexists; split; [done|]. done.
Qed.



End MutexFacts.

(** ** The class over any runtime *)

Section MutexSpec.
Context {RT : Type} `{!DartRuntime RT}.
Variable Team_All : team_ref.

(** C3 — Error escalation.  Whichever of the five member functions is
    called, once its runtime call (init, free, acquire, try_acquire or
    release) has returned a status other than [DART_OK], the member
    function ends in the fatal error carrying that status: it neither
    returns a value nor goes on.  The call is on record with the status
    it returned. *)
Theorem status_escalated (f : method) (this : Mutex) (w : world RT)
    (c : dart_call) (r : dart_ret_t) :
  runtime_call Team_All f this w = Some c →
  status_of c (runtime w) = Some r →
  r ≠ DART_OK →
  ∃ msg,
    (run_method Team_All f this w).1 = Fatal msg DART_OK r ∧
    calls (run_method Team_All f this w).2 = (calls w ++ [(c, r)])%list.
Proof.
  intros Hc Hs Hr.
  destruct (run_method_status Team_All f this w c r Hc Hs) as [Hlog Hout].
  destruct (decide (DART_OK = r)) as [<-|_]; [done|].
  destruct Hout as (msg & Hout & _). eauto.
Qed.

(** Every failed check of [unlock()] carries the text written for
    [lock()]. *)
Lemma unlock_fatal_msg this w msg e v :
  (unlock this w).1 = Fatal msg e v → msg = "dart_lock_acquire failed".
Proof.
  rewrite unlock_eq. destruct (dart_lock_release _ _) as [r s].
  rewrite checked_outcome. destruct (decide _); intros; simplify_eq. done.
Qed.

(** C9 — The boolean of [try_lock()].  When [dart_lock_try_acquire]
    returns [DART_OK] and writes [v] to the out-parameter, [try_lock()]
    returns a boolean that is [true] exactly when [v] is not zero. *)
Theorem try_lock_nonzero (this : Mutex) (w : world RT)
    (r : dart_ret_t) (v : int32_t) (s : RT) :
  dart_lock_try_acquire (_mutex this) (runtime w) = (r, v, s) →
  r = DART_OK →
  ∃ b, (try_lock this w).1 = Done b ∧ (b = true ↔ v ≠ 0).
Proof.
  intros Hcall ->. rewrite try_lock_eq, Hcall. simpl.
  exists (static_cast_bool v). split; [reflexivity|].
  unfold static_cast_bool. rewrite negb_true_iff, Z.eqb_neq. tauto.
Qed.

(** C10 — The team is held by reference.  The constructor reads the id of
    the team it is given, [dash::Team::All()] when it is given none,
    calls [dart_team_lock_init] with that id and, on [DART_OK], returns
    the object made of the handle the call wrote and of the reference to
    that same team; the [Team] objects are the same before and after.
    A constructor call without argument is the call with
    [dash::Team::All()].  No member function changes the [Team] objects
    of the process, and a move keeps the reference. *)
Theorem team_by_reference (team : option team_ref) (f : method)
    (this : Mutex) (w : world RT) (tm : Team)
    (r : dart_ret_t) (h : dart_lock_t) (s : RT) :
  teams w !! default Team_All team = Some tm →
  dart_team_lock_init (dart_id tm) (runtime w) = (r, h, s) →
  Mutex_ctor Team_All team w
  = (if decide (DART_OK = r)
     then Done (mkMutex h (default Team_All team))
     else Fatal "dart_team_lock_init failed" DART_OK r,
     World (teams w) s
       (calls w ++ [(call_team_lock_init (dart_id tm), r)])) ∧
  (team = None →
     teams w !! Team_All = Some tm ∧
     Mutex_ctor Team_All None w
     = (if decide (DART_OK = r)
        then Done (mkMutex h Team_All)
        else Fatal "dart_team_lock_init failed" DART_OK r,
        World (teams w) s
          (calls w ++ [(call_team_lock_init (dart_id tm), r)]))) ∧
  Mutex_ctor Team_All None w = Mutex_ctor Team_All (Some Team_All) w ∧
  (∀ m w', Mutex_ctor Team_All team w = (Done m, w') →
     _team m = default Team_All team ∧
     teams w' = teams w ∧
     ∃ tm, teams w !! default Team_All team = Some tm ∧
           calls w' = (calls w ++ [(call_team_lock_init (dart_id tm), DART_OK)])%list) ∧
  teams (run_method Team_All f this w).2 = teams w ∧
  _team (Mutex_move this).1 = _team this ∧ (Mutex_move this).2 = this.
Proof.
  intros Htm Hinit.
  assert (Mutex_ctor Team_All team w
          = (if decide (DART_OK = r)
             then Done (mkMutex h (default Team_All team))
             else Fatal "dart_team_lock_init failed" DART_OK r,
             World (teams w) s
               (calls w ++ [(call_team_lock_init (dart_id tm), r)]))) as Hctor.
  { rewrite Mutex_ctor_eq, Htm, Hinit. unfold checked, returned.
    destruct (decide (DART_OK = r)); reflexivity. }
  split; [exact Hctor|]. split.
  { intros ->. split; [exact Htm|exact Hctor]. }
  split; [reflexivity|]. split; [|split; [apply run_method_teams|done]].
  intros m w'. rewrite Hctor.
  destruct (decide (DART_OK = r)) as [<-|]; [|done].
  intros [= <- <-]. simpl. eauto.
Qed.

End MutexSpec.

Lemma status_escalated_witness :
  ∃ msg,
    (@run_method _ Scripted.runtime_of Scripted.Team_All TryLock
       (mkMutex 7 Scripted.Team_All) (Scripted.start [(DART_ERR 3, 0)])).1
    = Fatal msg DART_OK (DART_ERR 3) ∧
    calls (@run_method _ Scripted.runtime_of Scripted.Team_All TryLock
       (mkMutex 7 Scripted.Team_All) (Scripted.start [(DART_ERR 3, 0)])).2
    = [(call_lock_try_acquire 7, DART_ERR 3)].
Proof.
  apply (@status_escalated _ Scripted.runtime_of Scripted.Team_All TryLock
           (mkMutex 7 Scripted.Team_All) (Scripted.start [(DART_ERR 3, 0)])
           (call_lock_try_acquire 7) (DART_ERR 3)).
  - reflexivity.
  - reflexivity.
  - discriminate.
Defined.

Lemma try_lock_nonzero_witness :
  ∃ b, (@try_lock _ Scripted.runtime_of (mkMutex 7 Scripted.Team_All)
          (Scripted.start [(DART_OK, -3)])).1 = Done b
       ∧ (b = true ↔ -3 ≠ 0).
Proof.
  apply (@try_lock_nonzero _ Scripted.runtime_of (mkMutex 7 Scripted.Team_All)
           (Scripted.start [(DART_OK, -3)]) DART_OK (-3) []).
  - reflexivity.
  - reflexivity.
Defined.

Lemma team_by_reference_witness :
  @Mutex_ctor _ Scripted.runtime_of Scripted.Team_All None
    (Scripted.start [(DART_OK, 5)])
  = (Done (mkMutex 5 Scripted.Team_All),
     World {[ Scripted.Team_All := mkTeam 0 ]} []
       [(call_team_lock_init 0, DART_OK)]).
Proof.
  refine (proj1 (@team_by_reference _ Scripted.runtime_of Scripted.Team_All None Lock
                   (mkMutex 5 Scripted.Team_All) (Scripted.start [(DART_OK, 5)])
                   (mkTeam 0) DART_OK 5 [] _ _)).
  - reflexivity.
  - reflexivity.
Defined.

(** C5 — Diagnostics.  A release that fails in [unlock()] is reported
    with the text of [lock()]: the diagnostic names [dart_lock_acquire]
    and does not name [dart_lock_release], the call that failed.  (The
    other four member functions name their own call, see
    [run_method_status].) *)
Theorem unlock_diagnostic_names_acquire :
  (@unlock _ Scripted.runtime_of (mkMutex 7 Scripted.Team_All)
     (Scripted.start [(DART_ERR 3, 0)])).1
  = Fatal "dart_lock_acquire failed" DART_OK (DART_ERR 3) ∧
  (@lock _ Scripted.runtime_of (mkMutex 7 Scripted.Team_All)
     (Scripted.start [(DART_ERR 3, 0)])).1
  = Fatal "dart_lock_acquire failed" DART_OK (DART_ERR 3) ∧
  names_call (call_lock_release 7) "dart_lock_acquire failed" = false ∧
  names_call (call_lock_acquire 7) "dart_lock_acquire failed" = true.
Proof. repeat split; reflexivity. Qed.

(** ** Objects of a process *)

Section ProcessFacts.
Import Process.

(** The defaulted move constructor hands the handle to the new object
    and leaves it in the old one. *)
Lemma Mutex_move_shares_handle (other : Mutex) :
  _mutex (Mutex_move other).1 = _mutex other ∧ (Mutex_move other).2 = other.
Proof. split; reflexivity. Qed.

Lemma move_breaks_single_owner (os : gmap string Mutex) (x src : string)
    (other : Mutex) :
  os !! x = None → os !! src = Some other →
  ¬ single_owner (<[x := (Mutex_move other).1]> (<[src := (Mutex_move other).2]> os)).
Proof.
  intros Hx Hsrc Hone.
  assert (x ≠ src) as Hne by (intros ->; congruence).
  apply Hne.
  apply (Hone x src (Mutex_move other).1 (Mutex_move other).2).
  - apply lookup_insert_eq.
  - rewrite lookup_insert_ne by done. apply lookup_insert_eq.
  - reflexivity.
Qed.

(** C2 — Move safety.  [Mutex m1; Mutex m2(std::move(m1));] followed by
    the end of both lifetimes ([m2] first): both destructors ask the
    runtime to free the handle that the constructor returned.  The
    first request succeeds; the second, made for [m1], finds the lock
    destroyed and ends in the fatal error of the destructor. *)
Theorem moved_from_mutex_frees_again :
  let prog := [Define "m1" None; MoveFrom "m2" "m1";
               EndOfLife "m2"; EndOfLife "m1"] in
  let res := @run _ (LockService.runtime_of 0%nat) 1%positive prog fresh_process in
  res.1 = Fatal "dart_team_lock_free failed" DART_OK LockService.DART_ERR_INVAL ∧
  calls (mem res.2) =
    [(call_team_lock_init 0, DART_OK);
     (call_team_lock_free 0 0, DART_OK);
     (call_team_lock_free 0 0, LockService.DART_ERR_INVAL)] ∧
  length (frees_of 0 (calls (mem res.2))) = 2%nat.
Proof. vm_compute. repeat split. Qed.

(** C6 — Single ownership.  There is no copy, but after
    [Mutex m1; Mutex m2(std::move(m1));] the process has two live
    objects, [m1] and [m2], with the same handle. *)
Theorem move_yields_two_owners :
  let prog := [Define "m1" None; MoveFrom "m2" "m1"] in
  let res := @run _ (LockService.runtime_of 0%nat) 1%positive prog fresh_process in
  res.1 = Done v_unit ∧
  objs res.2 !! "m1" = Some (mkMutex 0 1%positive) ∧
  objs res.2 !! "m2" = Some (mkMutex 0 1%positive) ∧
  ¬ single_owner (objs res.2).
Proof.
  cbv zeta.
  assert (@run _ (LockService.runtime_of 0%nat) 1%positive
            [Define "m1" None; MoveFrom "m2" "m1"] fresh_process
          = (Done v_unit,
             Proc (<["m2" := (Mutex_move (mkMutex 0 1%positive)).1]>
                     (<["m1" := (Mutex_move (mkMutex 0 1%positive)).2]>
                        (<["m1" := mkMutex 0 1%positive]> ∅)))
                  (World {[ 1%positive := mkTeam 0 ]}
                     (LockService.Service (<[0 := LockService.Unlocked]> ∅) 1)
                     [(call_team_lock_init 0, DART_OK)]))) as ->
    by reflexivity.
  simpl. split; [reflexivity|]. split; [reflexivity|]. split; [reflexivity|].
  apply move_breaks_single_owner.
  - rewrite lookup_insert_ne by done. apply lookup_empty.
  - apply lookup_insert_eq.
Qed.

End ProcessFacts.

(** ** The class on the lock service *)

Section ServiceFacts.
Import LockService.
(** The calling process. *)
Variable me : rank.

Local Abbreviation rt := (runtime_of me).

Lemma lock_unlocked (this : Mutex) (w : world service) :
  locks (runtime w) !! _mutex this = Some Unlocked →
  @lock _ rt this w =
  (Done tt, World (teams w) (set_lock (_mutex this) (Locked me) (runtime w))
              (calls w ++ [(call_lock_acquire (_mutex this), DART_OK)])).
Proof. intros Hl. rewrite lock_eq. simpl. unfold acquire. rewrite Hl. reflexivity. Qed.

Lemma lock_locked (this : Mutex) (w : world service) (r : rank) :
  locks (runtime w) !! _mutex this = Some (Locked r) →
  @lock _ rt this w = (Blocked, w).
Proof. intros Hl. rewrite lock_eq. simpl. unfold acquire. rewrite Hl. reflexivity. Qed.

Lemma try_lock_unlocked (this : Mutex) (w : world service) :
  locks (runtime w) !! _mutex this = Some Unlocked →
  @try_lock _ rt this w =
  (Done true, World (teams w) (set_lock (_mutex this) (Locked me) (runtime w))
                (calls w ++ [(call_lock_try_acquire (_mutex this), DART_OK)])).
Proof. intros Hl. rewrite try_lock_eq. simpl. unfold try_acquire. rewrite Hl. reflexivity. Qed.

Lemma try_lock_locked (this : Mutex) (w : world service) (r : rank) :
  locks (runtime w) !! _mutex this = Some (Locked r) →
  @try_lock _ rt this w =
  (Done false, World (teams w) (runtime w)
                 (calls w ++ [(call_lock_try_acquire (_mutex this), DART_OK)])).
Proof. intros Hl. rewrite try_lock_eq. simpl. unfold try_acquire. rewrite Hl. reflexivity. Qed.

Lemma unlock_held (this : Mutex) (w : world service) :
  locks (runtime w) !! _mutex this = Some (Locked me) →
  @unlock _ rt this w =
  (Done tt, World (teams w) (set_lock (_mutex this) Unlocked (runtime w))
              (calls w ++ [(call_lock_release (_mutex this), DART_OK)])).
Proof.
  intros Hl. rewrite unlock_eq. simpl. unfold release. rewrite Hl.
  destruct (decide (me = me)); [reflexivity|done].
Qed.

Lemma unlock_not_held (this : Mutex) (w : world service) :
  locks (runtime w) !! _mutex this ≠ Some (Locked me) →
  @unlock _ rt this w =
  (Fatal "dart_lock_acquire failed" DART_OK DART_ERR_INVAL,
   World (teams w) (runtime w)
     (calls w ++ [(call_lock_release (_mutex this), DART_ERR_INVAL)])).
Proof.
  intros Hl. rewrite unlock_eq. simpl. unfold release.
  destruct (locks (runtime w) !! _mutex this) as [[|r|]|]; try reflexivity.
  destruct (decide (r = me)) as [->|]; [done|reflexivity].
Qed.

Lemma set_lock_lookup h st s : locks (set_lock h st s) !! h = Some st.
Proof. apply lookup_insert_eq. Qed.

End ServiceFacts.

Section ServiceSpec.
Import LockService.
(** The calling process. *)
Variable me : rank.

Local Abbreviation rt := (runtime_of me).


(** C7 — [lock()].  The body is one call of [dart_lock_acquire] on the
    handle followed by the check.  On the lock service: from Unlocked
    the call returns and the lock is Locked by the caller; while some
    member holds the lock the call does not return and nothing
    changes.  Over any runtime, a status other than [DART_OK] ends
    [lock()] in the fatal error. *)
Theorem lock_behaviour (this : Mutex) (w : world service) :
  (locks (runtime w) !! _mutex this = Some Unlocked →
     @lock _ rt this w =
     (Done tt, World (teams w) (set_lock (_mutex this) (Locked me) (runtime w))
                 (calls w ++ [(call_lock_acquire (_mutex this), DART_OK)])) ∧
     locks (runtime (@lock _ rt this w).2) !! _mutex this = Some (Locked me)) ∧
  (∀ r, locks (runtime w) !! _mutex this = Some (Locked r) →
        @lock _ rt this w = (Blocked, w)) ∧
  (∀ RT (R : DartRuntime RT) (this' : Mutex) (w' : world RT),
     match dart_lock_acquire (_mutex this') (runtime w') with
     | None => @lock _ R this' w' = (Blocked, w')
     | Some (st, s) =>
         calls (@lock _ R this' w').2
         = (calls w' ++ [(call_lock_acquire (_mutex this'), st)])%list ∧
         runtime (@lock _ R this' w').2 = s ∧
         (@lock _ R this' w').1
         = if decide (DART_OK = st) then Done tt
           else Fatal "dart_lock_acquire failed" DART_OK st
     end).
Proof.
  split; [|split].
  - intros Hl. rewrite (lock_unlocked me this w Hl). split; [done|].
    simpl. apply set_lock_lookup.
  - intros r Hl. apply (lock_locked me this w r Hl).
  - intros RT R this' w'. rewrite lock_eq.
    destruct (dart_lock_acquire _ _) as [[st s]|]; [|done].
    rewrite checked_outcome. unfold checked.
    destruct (decide (DART_OK = st)); done.
Qed.

(** C8 — [unlock()].  Called by the member that holds the lock,
    [unlock()] returns and the lock is Unlocked in the shared service:
    from there the [try_lock()] and the [lock()] of any member succeed.
    Called by a member that does not hold the lock, it changes nothing
    in the service and ends in the fatal error. *)
Theorem unlock_behaviour (this : Mutex) (w : world service) :
  (locks (runtime w) !! _mutex this = Some (Locked me) →
     @unlock _ rt this w =
     (Done tt, World (teams w) (set_lock (_mutex this) Unlocked (runtime w))
                 (calls w ++ [(call_lock_release (_mutex this), DART_OK)])) ∧
     locks (runtime (@unlock _ rt this w).2) !! _mutex this = Some Unlocked ∧
     ∀ (other : rank) (that : Mutex) (w' : world service),
       _mutex that = _mutex this →
       runtime w' = runtime (@unlock _ rt this w).2 →
       (@try_lock _ (runtime_of other) that w').1 = Done true ∧
       (@lock _ (runtime_of other) that w').1 = Done tt) ∧
  (locks (runtime w) !! _mutex this ≠ Some (Locked me) →
     is_fatal (@unlock _ rt this w).1 = true ∧
     runtime (@unlock _ rt this w).2 = runtime w).
Proof.
  split.
  - intros Hl. rewrite (unlock_held me this w Hl). split; [done|]. simpl.
    split; [apply set_lock_lookup|].
    intros other that w' Hh Hw'.
    assert (locks (runtime w') !! _mutex that = Some Unlocked) as Hfree.
    { rewrite Hw', Hh. apply set_lock_lookup. }
    rewrite (try_lock_unlocked other that w' Hfree).
    rewrite (lock_unlocked other that w' Hfree). done.
  - intros Hl. rewrite (unlock_not_held me this w Hl). done.
Qed.

End ServiceSpec.


Lemma lock_behaviour_witness :
  LockService.locks
    (runtime (@lock _ (LockService.runtime_of 1%nat) (mkMutex 0 1%positive)
       (World ∅ (LockService.Service {[ 0 := LockService.Unlocked ]} 1) [])).2)
    !! 0
  = Some (LockService.Locked 1%nat).
Proof.
  refine (proj2 (proj1 (lock_behaviour 1%nat (mkMutex 0 1%positive)
    (World ∅ (LockService.Service {[ 0 := LockService.Unlocked ]} 1) [])) _)).
  reflexivity.
Defined.

Lemma unlock_behaviour_witness :
  LockService.locks
    (runtime (@unlock _ (LockService.runtime_of 1%nat) (mkMutex 0 1%positive)
       (World ∅ (LockService.Service {[ 0 := LockService.Locked 1%nat ]} 1) [])).2)
    !! 0
  = Some LockService.Unlocked.
Proof.
  refine (proj1 (proj2 (proj1 (unlock_behaviour 1%nat (mkMutex 0 1%positive)
    (World ∅ (LockService.Service {[ 0 := LockService.Locked 1%nat ]} 1) [])) _))).
  reflexivity.
Defined.

(** ** A team sharing one lock *)

Section TeamFacts.
Import LockService TeamRun.
Variable h : dart_lock_t.

(** Each served call keeps the members' views in line with the
    service. *)
Lemma step_holders_agree (me : rank) (a : action) (st st' : team_state) :
  holders_agree h st → step h me a st = Some st' → holders_agree h st'.
Proof.
  intros Hinv. unfold step, on_service.
  destruct (decide (me ∈ aborted st)); [done|].
  destruct (locks (shared st) !! h) as [[|r|]|] eqn:Hl.
  - (* Unlocked: nobody is a holder yet *)
    assert (holders st = ∅) as Hnone.
    { apply set_eq. intros r. split; [|set_solver].
      intros Hr. specialize (Hinv r Hr). congruence. }
    destruct a.
    + rewrite (lock_unlocked me (mutex_of h me) (World ∅ (shared st) []) Hl).
      intros [= <-] r. simpl. rewrite Hnone.
      rewrite union_empty_r_L. intros ->%elem_of_singleton.
      apply set_lock_lookup.
    + rewrite (try_lock_unlocked me (mutex_of h me) (World ∅ (shared st) []) Hl).
      intros [= <-] r. simpl. rewrite Hnone.
      rewrite union_empty_r_L. intros ->%elem_of_singleton.
      apply set_lock_lookup.
    + rewrite (unlock_not_held me (mutex_of h me) (World ∅ (shared st) []))
        by (simpl; congruence).
      intros [= <-]. exact Hinv.
  - (* Locked by r *)
    destruct a.
    + by rewrite (lock_locked me (mutex_of h me) (World ∅ (shared st) []) r Hl).
    + rewrite (try_lock_locked me (mutex_of h me) (World ∅ (shared st) []) r Hl).
      intros [= <-]. exact Hinv.
    + destruct (decide (r = me)) as [->|Hne].
      * rewrite (unlock_held me (mutex_of h me) (World ∅ (shared st) []) Hl).
        intros [= <-] r' [Hr' Hnot]%elem_of_difference. exfalso.
        specialize (Hinv r' Hr'). rewrite Hl in Hinv. set_solver.
      * rewrite (unlock_not_held me (mutex_of h me) (World ∅ (shared st) []))
        by (simpl; congruence).
        intros [= <-]. exact Hinv.
  - (* Destroyed *)
    destruct a; rewrite ?lock_eq, ?try_lock_eq, ?unlock_eq; simpl;
      unfold acquire, try_acquire, release; rewrite Hl; simpl;
      intros [= <-]; exact Hinv.
  - (* Uninitialized *)
    destruct a; rewrite ?lock_eq, ?try_lock_eq, ?unlock_eq; simpl;
      unfold acquire, try_acquire, release; rewrite Hl; simpl;
      intros [= <-]; exact Hinv.
Qed.

Lemma run_holders_agree (sched : list (rank * action)) (st : team_state) :
  holders_agree h st → holders_agree h (run h sched st).
Proof.
  revert st. induction sched as [|[me a] rest IH]; intros st Hinv; [exact Hinv|].
  simpl. destruct (step h me a st) as [st'|] eqn:Hstep.
  - apply IH. exact (step_holders_agree me a st st' Hinv Hstep).
  - apply IH, Hinv.
Qed.

Lemma holders_agree_exclusive (st : team_state) :
  holders_agree h st → mutual_exclusion st.
Proof.
  intros Hinv r1 r2 H1 H2.
  pose proof (Hinv r1 H1) as E1. pose proof (Hinv r2 H2) as E2.
  congruence.
Qed.

End TeamFacts.

(** C1 — Mutual exclusion.  Take the handle that the constructor obtains
    for a team from the lock service.  However the members' [lock()],
    [try_lock()] and [unlock()] calls are interleaved, and however far
    the interleaving has got, two members that both see themselves as
    holder are the same member. *)
Theorem mutual_exclusion_holds (team : dart_team_t) (creator : LockService.rank)
    (s s0 : LockService.service) (status : dart_ret_t) (h : dart_lock_t)
    (sched : list (LockService.rank * TeamRun.action)) (r1 r2 : LockService.rank) :
  @dart_team_lock_init _ (LockService.runtime_of creator) team s = (status, h, s0) →
  r1 ∈ TeamRun.holders (TeamRun.run h sched (TeamRun.after_ctor s0)) →
  r2 ∈ TeamRun.holders (TeamRun.run h sched (TeamRun.after_ctor s0)) →
  r1 = r2.
Proof.
  intros _. apply holders_agree_exclusive with (h := h).
  apply run_holders_agree. intros r Hr. simpl in Hr. set_solver.
Qed.

Lemma mutual_exclusion_witness :
  0%nat ∈ TeamRun.holders
    (TeamRun.run 0
       [(0%nat, TeamRun.a_lock); (1%nat, TeamRun.a_try_lock); (1%nat, TeamRun.a_lock)]
       (TeamRun.after_ctor
          (LockService.Service {[ 0 := LockService.Unlocked ]} 1))) ∧
  0%nat = 0%nat.
Proof.
  assert (0%nat ∈ TeamRun.holders
    (TeamRun.run 0
       [(0%nat, TeamRun.a_lock); (1%nat, TeamRun.a_try_lock); (1%nat, TeamRun.a_lock)]
       (TeamRun.after_ctor
          (LockService.Service {[ 0 := LockService.Unlocked ]} 1)))) as Hin.
  { vm_compute. reflexivity. }
  split; [exact Hin|].
  apply (mutual_exclusion_holds 0 0%nat LockService.empty_service
           (LockService.Service {[ 0 := LockService.Unlocked ]} 1) DART_OK 0
           [(0%nat, TeamRun.a_lock); (1%nat, TeamRun.a_try_lock); (1%nat, TeamRun.a_lock)]
           0%nat 0%nat).
  - reflexivity.
  - exact Hin.
  - exact Hin.
Defined.

(** The two-member scenario of the specification: A locks, B's
    [try_lock()] returns [false], A unlocks, B's [try_lock()] returns
    [true], B unlocks; the lock ends Unlocked with nobody holding it. *)
Example scenario_two_members :
  let st1 := TeamRun.run 0 [(0%nat, TeamRun.a_lock); (1%nat, TeamRun.a_try_lock)]
               (TeamRun.after_ctor (LockService.Service {[ 0 := LockService.Unlocked ]} 1)) in
  let st2 := TeamRun.run 0 [(0%nat, TeamRun.a_unlock); (1%nat, TeamRun.a_try_lock)] st1 in
  let st3 := TeamRun.run 0 [(1%nat, TeamRun.a_unlock)] st2 in
  LockService.locks (TeamRun.shared st1) !! 0 = Some (LockService.Locked 0%nat) ∧
  LockService.locks (TeamRun.shared st2) !! 0 = Some (LockService.Locked 1%nat) ∧
  LockService.locks (TeamRun.shared st3) !! 0 = Some LockService.Unlocked ∧
  TeamRun.holders st3 = ∅ ∧ TeamRun.aborted st3 = ∅.
Proof. vm_compute. repeat split. Qed.

(** The one-member scenario: construct, [lock()], [unlock()], destruct
    all return, with one runtime call each. *)
Example scenario_one_member :
  let res := @Process.run _ (LockService.runtime_of 0%nat) 1%positive
               [Process.Define "mx" None; Process.CallLock "mx";
                Process.CallUnlock "mx"; Process.EndOfLife "mx"] fresh_process in
  res.1 = Done v_unit ∧
  calls (Process.mem res.2) =
    [(call_team_lock_init 0, DART_OK); (call_lock_acquire 0, DART_OK);
     (call_lock_release 0, DART_OK); (call_team_lock_free 0 0, DART_OK)] ∧
  LockService.locks (runtime (Process.mem res.2)) !! 0 = Some LockService.Destroyed.
Proof. vm_compute. repeat split. Qed.

(** * Further properties of the class, over any runtime *)

Section MutexMore.
Context {RT : Type} `{!DartRuntime RT}.
Variable Team_All : team_ref.

(** X1 — One call per member function.  A member function makes its one
    runtime call and no other: when the call returns, the record of
    calls grows by exactly that call with its status and the [Team]
    objects are untouched; when the call does not return, or the team
    referred to does not exist, nothing has changed at all. *)
Theorem one_call_per_method (f : method) (this : Mutex) (w : world RT) :
  match runtime_call Team_All f this w with
  | None => run_method Team_All f this w = (Undefined, w)
  | Some c =>
      match status_of c (runtime w) with
      | None => run_method Team_All f this w = (Blocked, w)
      | Some r =>
          calls (run_method Team_All f this w).2 = (calls w ++ [(c, r)])%list ∧
          teams (run_method Team_All f this w).2 = teams w
      end
  end.
Proof.
  destruct (runtime_call Team_All f this w) as [c|] eqn:Hc.
  - destruct (status_of c (runtime w)) as [r|] eqn:Hs.
    + split; [|apply run_method_teams].
      apply (run_method_status Team_All f this w c r Hc Hs).
    + destruct f; simpl in Hc; unfold run_method, bind.
      * destruct (teams w !! default Team_All team); simplify_eq/=.
      * destruct (teams w !! _team this); simplify_eq/=.
      * simplify_eq/=. rewrite lock_eq.
        destruct (dart_lock_acquire _ _); [done|reflexivity].
      * simplify_eq/=.
      * simplify_eq/=.
  - destruct f; simpl in Hc; unfold run_method, bind; try done.
    + rewrite Mutex_ctor_eq.
      destruct (teams w !! default Team_All team); [done|reflexivity].
    + rewrite Mutex_dtor_eq.
      destruct (teams w !! _team this); [done|reflexivity].
Qed.

(** X2 — A member function returns exactly when its call succeeded.
    Once the runtime call has returned status [r], the member function
    returns a value if and only if [r] is [DART_OK], and ends in the
    fatal error if and only if it is not: there is no failure without a
    failed call and no silent success. *)
Theorem returns_iff_status_ok (f : method) (this : Mutex) (w : world RT)
    (c : dart_call) (r : dart_ret_t) :
  runtime_call Team_All f this w = Some c →
  status_of c (runtime w) = Some r →
  ((∃ v, (run_method Team_All f this w).1 = Done v) ↔ r = DART_OK) ∧
  (is_fatal (run_method Team_All f this w).1 = true ↔ r ≠ DART_OK).
Proof.
  intros Hc Hs.
  destruct (run_method_status Team_All f this w c r Hc Hs) as [_ Hout].
  destruct (decide (DART_OK = r)) as [<-|Hne].
  - destruct Hout as [v Hv]. rewrite Hv. split; split; eauto; done.
  - destruct Hout as (msg & Hv & _). rewrite Hv. simpl.
    split; split; try done. intros [v Hd]. done.
Qed.

(** X3 — Where a fatal error comes from and what it says.  A member
    function ends in the fatal error only after its own runtime call has
    returned a status other than [DART_OK]; the error carries
    [DART_OK] as the expected and that status as the actual value; its
    text is the name of the called runtime function followed by
    " failed", except in [unlock()], whose text is that of [lock()]. *)
Theorem fatal_origin (f : method) (this : Mutex) (w : world RT)
    (msg : string) (e v : dart_ret_t) :
  (run_method Team_All f this w).1 = Fatal msg e v →
  e = DART_OK ∧ v ≠ DART_OK ∧
  ∃ c, runtime_call Team_All f this w = Some c ∧
       status_of c (runtime w) = Some v ∧
       msg = match f with
             | Unlock => "dart_lock_acquire"
             | _ => dart_call_name c
             end +:+ " failed".
Proof.
  destruct f; unfold run_method, bind, ret; simpl.
  - rewrite Mutex_ctor_eq.
    destruct (teams w !! default Team_All team) as [tm|]; [|done].
    destruct (dart_team_lock_init _ _) as [[r h] s] eqn:Hcall. unfold checked.
    destruct (decide (DART_OK = r)); [done|]. intros [= <- <- <-].
    repeat split; [done|]. eexists. split; [done|]. simpl. rewrite Hcall. done.
  - rewrite Mutex_dtor_eq.
    destruct (teams w !! _team this) as [tm|]; [|done].
    destruct (dart_team_lock_free _ _ _) as [[r h] s] eqn:Hcall. unfold checked.
    destruct (decide (DART_OK = r)); [done|]. intros [= <- <- <-].
    repeat split; [done|]. eexists. split; [done|]. simpl. rewrite Hcall. done.
  - rewrite lock_eq.
    destruct (dart_lock_acquire _ _) as [[r s]|] eqn:Hcall; [|done]. unfold checked.
    destruct (decide (DART_OK = r)); [done|]. intros [= <- <- <-].
    repeat split; [done|]. eexists. split; [done|]. simpl. rewrite Hcall. done.
  - rewrite try_lock_eq.
    destruct (dart_lock_try_acquire _ _) as [[r x] s] eqn:Hcall. unfold checked.
    destruct (decide (DART_OK = r)); [done|]. intros [= <- <- <-].
    repeat split; [done|]. eexists. split; [done|]. simpl. rewrite Hcall. done.
  - rewrite unlock_eq.
    destruct (dart_lock_release _ _) as [r s] eqn:Hcall. unfold checked.
    destruct (decide (DART_OK = r)); [done|]. intros [= <- <- <-].
    repeat split; [done|]. eexists. split; [done|]. simpl. rewrite Hcall. done.
Qed.

(** X4 — [try_lock()] says "acquired" only on a successful call.  It
    returns [true] exactly when the runtime returned [DART_OK] and a
    non-zero result, and [false] exactly when the runtime returned
    [DART_OK] and zero; with any other status it returns neither,
    whatever the result value holds. *)
Theorem try_lock_true_iff (this : Mutex) (w : world RT) :
  let res := dart_lock_try_acquire (_mutex this) (runtime w) in
  ((try_lock this w).1 = Done true ↔ res.1.1 = DART_OK ∧ res.1.2 ≠ 0) ∧
  ((try_lock this w).1 = Done false ↔ res.1.1 = DART_OK ∧ res.1.2 = 0).
Proof.
  cbv zeta. rewrite try_lock_eq.
  destruct (dart_lock_try_acquire _ _) as [[r v] s]. simpl.
  rewrite checked_outcome. unfold static_cast_bool.
  destruct (decide (DART_OK = r)) as [<-|Hne].
  - destruct (Z.eqb_spec v 0) as [->|Hv]; simpl; split; split;
      try done; try (intros [_ ?]; done); intros; split; done.
  - split; split; try done; intros [-> _]; done.
Qed.

(** X5 — The destructor frees what the constructor obtained.  For an
    object that the constructor returned, the destructor, whenever it
    runs later in the same process (the [Team] objects being what they
    were), asks the runtime to free the handle that
    [dart_team_lock_init] wrote, for the team id that the constructor
    passed to it, and returns exactly when that request succeeds. *)
Theorem dtor_frees_ctor_handle (team : option team_ref) (w w1 w2 : world RT)
    (m : Mutex) :
  Mutex_ctor Team_All team w = (Done m, w1) →
  teams w2 = teams w →
  ∃ tm,
    teams w !! default Team_All team = Some tm ∧
    (dart_team_lock_init (dart_id tm) (runtime w)).1 = (DART_OK, _mutex m) ∧
    let r := (dart_team_lock_free (dart_id tm) (_mutex m) (runtime w2)).1.1 in
    calls (Mutex_dtor m w2).2
    = (calls w2 ++ [(call_team_lock_free (dart_id tm) (_mutex m), r)])%list ∧
    (Mutex_dtor m w2).1
    = if decide (DART_OK = r) then Done tt
      else Fatal "dart_team_lock_free failed" DART_OK r.
Proof.
  rewrite Mutex_ctor_eq.
  destruct (teams w !! default Team_All team) as [tm|] eqn:Htm; [|done].
  destruct (dart_team_lock_init _ _) as [[r h] s] eqn:Hinit. unfold checked.
  destruct (decide (DART_OK = r)) as [<-|]; [|done].
  intros [= <- <-] Hteams. exists tm. split; [done|].
  rewrite Hinit. split; [done|].
  cbv zeta. rewrite Mutex_dtor_eq. simpl. rewrite Hteams, Htm.
  destruct (dart_team_lock_free _ _ _) as [[r' h'] s']. simpl.
  rewrite checked_outcome. unfold checked.
  destruct (decide (DART_OK = r')); done.
Qed.

(** X6 — After a move, both destructors free the same handle.  Whatever
    the runtime: when the object built by the move constructor is
    destroyed and its destructor returns, the destructor of the
    moved-from object issues [dart_team_lock_free] once more, for the
    same team id and the same handle. *)
Theorem destructors_free_same_handle (other : Mutex) (w w1 : world RT) (tm : Team) :
  teams w !! _team other = Some tm →
  Mutex_dtor (Mutex_move other).1 w = (Done tt, w1) →
  ∃ r,
    calls (Mutex_dtor (Mutex_move other).2 w1).2
    = (calls w ++ [(call_team_lock_free (dart_id tm) (_mutex other), DART_OK);
                   (call_team_lock_free (dart_id tm) (_mutex other), r)])%list.
Proof.
  intros Htm. rewrite !Mutex_dtor_eq. simpl. rewrite Htm.
  destruct (dart_team_lock_free _ _ _) as [[r h] s]. unfold checked.
  destruct (decide (DART_OK = r)) as [<-|]; [|done].
  intros [= <-]. simpl. rewrite Htm.
  destruct (dart_team_lock_free _ _ _) as [[r' h'] s'].
  exists r'. destruct (decide (DART_OK = r')); simpl; by rewrite <- app_assoc.
Qed.

(** X7 — [lock()], [try_lock()] and [unlock()] use the handle only.
    Two objects with the same handle, in two states of the process with
    the same runtime state, get the same result and leave the same
    runtime state, whatever their team references and whatever [Team]
    objects exist: these three never look at the team. *)
Theorem lock_calls_ignore_team (f : method) (this that : Mutex) (w w' : world RT) :
  f = Lock ∨ f = TryLock ∨ f = Unlock →
  _mutex this = _mutex that →
  runtime w = runtime w' →
  (run_method Team_All f this w).1 = (run_method Team_All f that w').1 ∧
  runtime (run_method Team_All f this w).2
  = runtime (run_method Team_All f that w').2.
Proof.
  intros Hf Hh Hrt. unfold run_method, bind, ret.
  destruct Hf as [->|[->| ->]].
  - rewrite !lock_eq, Hh, Hrt.
    destruct (dart_lock_acquire _ _) as [[r s]|]; [|done].
    unfold checked. destruct (decide _); done.
  - rewrite !try_lock_eq, Hh, Hrt.
    destruct (dart_lock_try_acquire _ _) as [[r v] s].
    unfold checked. destruct (decide _); done.
  - rewrite !unlock_eq, Hh, Hrt.
    destruct (dart_lock_release _ _) as [r s].
    unfold checked. destruct (decide _); done.
Qed.

(** X8 — Single ownership is kept by everything but the move.  In a
    process where no two live objects share a handle, a statement other
    than a move construction leaves it so, provided that
    [dart_team_lock_init], when a new object is constructed, writes a
    handle that no live object holds. *)
Theorem single_owner_kept (o : Process.op) (p : Process.proc RT) :
  Process.single_owner (Process.objs p) →
  (∀ x src, o ≠ Process.MoveFrom x src) →
  (∀ x team tm, o = Process.Define x team →
     teams (Process.mem p) !! default Team_All team = Some tm →
     ∀ y my, Process.objs p !! y = Some my →
       _mutex my
       ≠ (dart_team_lock_init (dart_id tm) (runtime (Process.mem p))).1.2) →
  Process.single_owner (Process.objs (Process.exec Team_All o p).2).
Proof.
  intros Hone Hmove Hfresh.
  assert (∀ this f,
            Process.objs (Process.call Team_All f this (λ _, Process.objs p) p).2
            = Process.objs p) as Hsame.
  { intros this f. unfold Process.call.
    destruct (run_method Team_All f this (Process.mem p)) as [[v| | |] w1]; done. }
  destruct o as [x team|x src|x|x|x|x]; simpl.
  - destruct (Process.objs p !! x) as [mx|] eqn:Hx; [exact Hone|].
    unfold Process.call, run_method, bind, ret. rewrite Mutex_ctor_eq.
    destruct (teams (Process.mem p) !! default Team_All team) as [tm|] eqn:Htm;
      [|exact Hone].
    pose proof (Hfresh x team tm eq_refl Htm) as Hnew.
    destruct (dart_team_lock_init _ _) as [[r h] s]. simpl in Hnew.
    unfold checked. destruct (decide (DART_OK = r)); [|exact Hone]. simpl.
    intros a b ma mb Ha Hb Hab.
    destruct (decide (a = x)) as [->|Hax], (decide (b = x)) as [->|Hbx]; [done| | |].
    + rewrite lookup_insert_eq in Ha. rewrite lookup_insert_ne in Hb by done.
      simplify_eq/=. by destruct (Hnew b mb Hb).
    + rewrite lookup_insert_eq in Hb. rewrite lookup_insert_ne in Ha by done.
      simplify_eq/=. by destruct (Hnew a ma Ha).
    + rewrite lookup_insert_ne in Ha by done. rewrite lookup_insert_ne in Hb by done.
      eauto.
  - destruct (Hmove x src eq_refl).
  - destruct (Process.objs p !! x) as [mx|] eqn:Hx; [|exact Hone].
    unfold Process.call.
    destruct (run_method Team_All Destruct mx (Process.mem p)) as [[v| | |] w1];
      simpl; try exact Hone.
    intros a b ma mb Ha Hb Hab.
    apply lookup_delete_Some in Ha as [_ Ha]. apply lookup_delete_Some in Hb as [_ Hb].
    eauto.
  - destruct (Process.objs p !! x) as [mx|]; [|exact Hone]. by rewrite Hsame.
  - destruct (Process.objs p !! x) as [mx|]; [|exact Hone]. by rewrite Hsame.
  - destruct (Process.objs p !! x) as [mx|]; [|exact Hone]. by rewrite Hsame.
Qed.

End MutexMore.

Lemma returns_iff_status_ok_witness :
  ((∃ v, (@run_method _ Scripted.runtime_of Scripted.Team_All Lock
            (mkMutex 7 Scripted.Team_All) (Scripted.start [])).1 = Done v)
   ↔ DART_OK = DART_OK) ∧
  (is_fatal (@run_method _ Scripted.runtime_of Scripted.Team_All Lock
               (mkMutex 7 Scripted.Team_All) (Scripted.start [])).1 = true
   ↔ DART_OK ≠ DART_OK).
Proof.
  apply (@returns_iff_status_ok _ Scripted.runtime_of Scripted.Team_All Lock
           (mkMutex 7 Scripted.Team_All) (Scripted.start [])
           (call_lock_acquire 7) DART_OK).
  - reflexivity.
  - reflexivity.
Defined.

Lemma fatal_origin_witness :
  DART_OK = DART_OK ∧ DART_ERR 3 ≠ DART_OK ∧
  ∃ c, @runtime_call _ Scripted.Team_All Unlock (mkMutex 7 Scripted.Team_All)
         (Scripted.start [(DART_ERR 3, 0)]) = Some c ∧
       @status_of _ Scripted.runtime_of c [(DART_ERR 3, 0)] = Some (DART_ERR 3) ∧
       "dart_lock_acquire failed" = "dart_lock_acquire" +:+ " failed".
Proof.
  apply (@fatal_origin _ Scripted.runtime_of Scripted.Team_All Unlock
           (mkMutex 7 Scripted.Team_All) (Scripted.start [(DART_ERR 3, 0)])
           "dart_lock_acquire failed" DART_OK (DART_ERR 3)).
  reflexivity.
Defined.

Lemma dtor_frees_ctor_handle_witness :
  ∃ tm,
    teams (Scripted.start [(DART_OK, 5)]) !! Scripted.Team_All = Some tm ∧
    (@dart_team_lock_init _ Scripted.runtime_of (dart_id tm) [(DART_OK, 5)]).1
    = (DART_OK, 5) ∧
    let r := (@dart_team_lock_free _ Scripted.runtime_of (dart_id tm) 5 []).1.1 in
    calls (@Mutex_dtor _ Scripted.runtime_of (mkMutex 5 Scripted.Team_All)
             (World {[ Scripted.Team_All := mkTeam 0 ]} []
                [(call_team_lock_init 0, DART_OK)])).2
    = [(call_team_lock_init 0, DART_OK); (call_team_lock_free (dart_id tm) 5, r)] ∧
    (@Mutex_dtor _ Scripted.runtime_of (mkMutex 5 Scripted.Team_All)
       (World {[ Scripted.Team_All := mkTeam 0 ]} []
          [(call_team_lock_init 0, DART_OK)])).1
    = if decide (DART_OK = r) then Done tt
      else Fatal "dart_team_lock_free failed" DART_OK r.
Proof.
  apply (@dtor_frees_ctor_handle _ Scripted.runtime_of Scripted.Team_All None
           (Scripted.start [(DART_OK, 5)])
           (World {[ Scripted.Team_All := mkTeam 0 ]} []
              [(call_team_lock_init 0, DART_OK)])
           (World {[ Scripted.Team_All := mkTeam 0 ]} []
              [(call_team_lock_init 0, DART_OK)])
           (mkMutex 5 Scripted.Team_All)).
  - reflexivity.
  - reflexivity.
Defined.

Lemma destructors_free_same_handle_witness :
  ∃ r,
    calls (@Mutex_dtor _ Scripted.runtime_of (Mutex_move (mkMutex 5 Scripted.Team_All)).2
             (World {[ Scripted.Team_All := mkTeam 0 ]} []
                [(call_team_lock_free 0 5, DART_OK)])).2
    = [(call_team_lock_free 0 5, DART_OK); (call_team_lock_free 0 5, r)].
Proof.
  apply (@destructors_free_same_handle _ Scripted.runtime_of
           (mkMutex 5 Scripted.Team_All) (Scripted.start [])
           (World {[ Scripted.Team_All := mkTeam 0 ]} []
              [(call_team_lock_free 0 5, DART_OK)])
           (mkTeam 0)).
  - reflexivity.
  - reflexivity.
Defined.

Lemma lock_calls_ignore_team_witness :
  (@run_method _ Scripted.runtime_of Scripted.Team_All TryLock
     (mkMutex 5 Scripted.Team_All) (Scripted.start [(DART_OK, 1)])).1
  = (@run_method _ Scripted.runtime_of Scripted.Team_All TryLock
       (mkMutex 5 99%positive) (World ∅ [(DART_OK, 1)] [])).1 ∧
  runtime (@run_method _ Scripted.runtime_of Scripted.Team_All TryLock
     (mkMutex 5 Scripted.Team_All) (Scripted.start [(DART_OK, 1)])).2
  = runtime (@run_method _ Scripted.runtime_of Scripted.Team_All TryLock
       (mkMutex 5 99%positive) (World ∅ [(DART_OK, 1)] [])).2.
Proof.
  apply (@lock_calls_ignore_team _ Scripted.runtime_of Scripted.Team_All TryLock
           (mkMutex 5 Scripted.Team_All) (mkMutex 5 99%positive)
           (Scripted.start [(DART_OK, 1)]) (World ∅ [(DART_OK, 1)] [])).
  - right; left; reflexivity.
  - reflexivity.
  - reflexivity.
Defined.

Lemma single_owner_kept_witness :
  Process.single_owner
    (Process.objs
       (@Process.exec _ Scripted.runtime_of Scripted.Team_All
          (Process.Define "b" None)
          (Process.Proc {[ "a" := mkMutex 3 Scripted.Team_All ]}
             (Scripted.start [(DART_OK, 4)]))).2).
Proof.
  apply (@single_owner_kept _ Scripted.runtime_of Scripted.Team_All
           (Process.Define "b" None)
           (Process.Proc {[ "a" := mkMutex 3 Scripted.Team_All ]}
              (Scripted.start [(DART_OK, 4)]))).
  - simpl. intros x y mx my [<- _]%lookup_singleton_Some [<- _]%lookup_singleton_Some _.
    reflexivity.
  - discriminate.
  - simpl. intros x team tm [= _ <-] [= <-] y my [_ <-]%lookup_singleton_Some.
    simpl. lia.
Defined.
